(** * The HTTP entry point of the config UI (src/main.ts)

  A shallow embedding of [bootstrap]: the per-request [connectSrc]
  directive of the content security policy, the three request handlers
  registered on the HTTP adapter (static bundle, [GET /],
  [GET /assets/snapshot.jpg]), the startup log line and the [listen] call.

  A reply records what the code of this file sets on it: the status and
  the headers written by a handler and by the [setHeaders] callback of the
  static assets, which the file sender runs on every file it sends, also
  for [res.sendFile].  What the sender adds of its own (validators, range
  support, the type it reads off the file name) is not part of a reply
  here.

  JavaScript values are modelled as the code uses them: an optional
  string is [option string] ([None] is [undefined]), a template literal
  is string concatenation with [undefined] rendered as the text
  "undefined", [a || b] is truthiness-based selection.  The filesystem is
  a finite map from absolute paths to nodes, and a handler that awaits
  twice observes it twice. *)

From Stdlib Require Import String Ascii NArith DecimalString.
From stdpp Require Import base option list strings gmap.

Local Open Scope string_scope.

(** ** JavaScript values *)

Module Js.

(** [`${v}`] for a value that is a string or [undefined]. *)
Definition template_str (v : option string) : string :=
  match v with
  | Some s => s
  | None => "undefined"
  end.

(** Decimal rendering of a non-negative integer number below 10^21, which
    covers every port a server can listen on (from 10^21 on JavaScript
    prints the exponent form, which is not modelled). *)
Definition num_to_string (n : N) : string :=
  NilZero.string_of_uint (N.to_uint n).

(** [`${v}`] for a value that is a number or [undefined]. *)
Definition template_num (v : option N) : string :=
  match v with
  | Some n => num_to_string n
  | None => "undefined"
  end.

(** Truthiness of a string-or-undefined value: [undefined] and the empty
    string are falsy. *)
Definition truthy_str (v : option string) : bool :=
  match v with
  | Some "" => false
  | Some _ => true
  | None => false
  end.

(** [v || ''] on a string-or-undefined value. *)
Definition or_empty (v : option string) : string :=
  if truthy_str v then template_str v else "".

(** [v || d] on a number-or-undefined value: [undefined] and [0] are
    falsy. *)
Definition or_num (v : option N) (d : N) : N :=
  match v with
  | Some n => if N.eqb n 0 then d else n
  | None => d
  end.

(** [hay.includes(needle)]. *)
Fixpoint includes (needle hay : string) : bool :=
  if String.prefix needle hay then true
  else match hay with
       | EmptyString => false
       | String _ rest => includes needle rest
       end.

End Js.

(** ** Configuration objects *)

(** [startupConfig]: only [cspWsOveride] is read after the server is
  built. *)
Record StartupConfig := {
  debug : bool;
  cspWsOveride : option string;
}.

(** [configService.ui] *)
Record UiConfig := {
  port : option N;
  loginWallpaper : option string;
}.

(** [configService] *)
Record ConfigService := {
  ui : UiConfig;
  package_version : string;
}.

(** ** Requests *)

Inductive Method := GET | POST | PUT | DELETE | OPTIONS | OTHER.

#[global] Instance Method_eq_dec : EqDecision Method.
Proof. solve_decision. Defined.

Record Request := {
  method : Method;
  url_path : string;
  headers_host : option string;
}.

(** ** Content security policy *)

Module Csp.

(** A source of a directive is a fixed string or a function of the
    request. *)
Inductive Source :=
| Lit (s : string)
| Fn (f : Request -> string).

Definition eval_source (req : Request) (src : Source) : string :=
  match src with
  | Lit s => s
  | Fn f => f req
  end.

(** The value of a directive in the header, as the [helmet] middleware
    writes it: the sources, each evaluated on the request, separated by
    single spaces. *)
Fixpoint join_sp (l : list string) : string :=
  match l with
  | [] => ""
  | [s] => s
  | s :: rest => s +:+ " " +:+ join_sp rest
  end.

Definition render (req : Request) (srcs : list Source) : string :=
  join_sp (map (eval_source req) srcs).

(** The function of [connectSrc]:
    [`wss://${req.headers.host} ws://${req.headers.host} ${startupConfig.cspWsOveride || ''}`] *)
Definition connectSrc_fn (startupConfig : StartupConfig) (req : Request) : string :=
  "wss://" +:+ Js.template_str (headers_host req) +:+
  " ws://" +:+ Js.template_str (headers_host req) +:+
  " " +:+ Js.or_empty (cspWsOveride startupConfig).

Definition connectSrc (startupConfig : StartupConfig) : list Source :=
  [Lit "'self'"; Fn (connectSrc_fn startupConfig)].

Definition defaultSrc : list Source := [Lit "'self'"].
Definition scriptSrc : list Source :=
  [Lit "'self'"; Lit "'unsafe-inline'"; Lit "'unsafe-eval'"].
Definition styleSrc : list Source := [Lit "'self'"; Lit "'unsafe-inline'"].
Definition imgSrc : list Source :=
  [Lit "'self'"; Lit "data:"; Lit "https://raw.githubusercontent.com"].
Definition workerSrc : list Source := [Lit "blob:"].

(** The [connect-src] directive of the response to [req]. *)
Definition connect_src (startupConfig : StartupConfig) (req : Request) : string :=
  render req (connectSrc startupConfig).

(** The dynamic segment as the specification words it, for a host text [h]
    and an override text [ov]: [wss://<host> ws://<host> <override>]. *)
Definition spec_dynamic_segment (h ov : string) : string :=
  "wss://" +:+ h +:+ " ws://" +:+ h +:+ " " +:+ ov.

End Csp.

(** ** Replies *)

(** What a handler hands to the HTTP adapter as the body. *)
Inductive Payload :=
| NoPayload
| Text (s : string)              (* [res.send('...')] *)
| Buffer (b : list Byte.byte)    (* [res.send(<Buffer>)] *)
| File (name : string).          (* a file under the static root, handed to the file sender *)

Record Reply := {
  statusCode : N;
  headers : list (string * string);
  payload : Payload;
}.

(** The reply object a handler receives: status 200, no header set yet. *)
Definition fresh : Reply :=
  {| statusCode := 200; headers := []; payload := NoPayload |}.

Fixpoint set_header (k v : string) (hs : list (string * string))
  : list (string * string) :=
  match hs with
  | [] => [(k, v)]
  | (k', v') :: rest =>
      if String.eqb k' k then (k, v) :: rest
      else (k', v') :: set_header k v rest
  end.

Fixpoint get_header (k : string) (hs : list (string * string)) : option string :=
  match hs with
  | [] => None
  | (k', v') :: rest => if String.eqb k' k then Some v' else get_header k rest
  end.

Module Res.

(** [res.header(k, v)] and [res.setHeader(k, v)] *)
Definition header (k v : string) (res : Reply) : Reply :=
  {| statusCode := statusCode res;
     headers := set_header k v (headers res);
     payload := payload res |}.

(** [res.type(t)] *)
Definition type (t : string) (res : Reply) : Reply :=
  header "Content-Type" t res.

(** [res.code(n)] *)
Definition code (n : N) (res : Reply) : Reply :=
  {| statusCode := n; headers := headers res; payload := payload res |}.

(** [res.send(p)] *)
Definition send (p : Payload) (res : Reply) : Reply :=
  {| statusCode := statusCode res; headers := headers res; payload := p |}.

(** [res.sendFile(name)], the decorator the static assets add to a reply.
    The file goes through the same sender as a file of the bundle, and the
    sender runs the [setHeaders] callback given to [useStaticAssets] on
    the reply just before the file is sent: after every header the handler
    wrote. *)
Definition sendFile (setHeaders : Reply -> Reply) (name : string)
    (res : Reply) : Reply :=
  send (File name) (setHeaders res).

End Res.

(** ** Logger *)

Inductive Level := LevelError | LevelWarn.

Definition Log := list (Level * string).

(** ** Filesystem *)

(** What a path names: a file the process can read, a directory, or a
    file that exists but that the process may not read. *)
Inductive Node :=
| RegularFile (content : list Byte.byte)
| Directory
| UnreadableFile.

(** The errors of [fs.readFile]; the one for a directory carries no
    path. *)
Inductive FsError :=
| ENOENT (p : string)
| EISDIR
| EACCES (p : string).

(** How a handler invocation ends: it sent a reply; or its promise
    rejected with no reply sent by the handler; or nothing matched and the
    framework's own not-found error surfaces. *)
Inductive Outcome :=
| Replied (r : Reply)
| Rejected (e : FsError)
| NotFound.

(** ** The handlers of [bootstrap] *)

Section Handlers.

(** [path.resolve] of Node's [path] module, for the working directory of the
    process: it gives the absolute form of a path.  The filesystem map is
    keyed by absolute paths, and every filesystem call resolves its
    argument first, as the operating system does. *)
Variable path_resolve : string -> string.

(** [fs.pathExists(p)]: resolves to a boolean, never rejects.  It tests
    existence only, not whether the file can be read. *)
Definition pathExists (fs : gmap string Node) (p : string) : bool :=
  match fs !! path_resolve p with
  | Some _ => true
  | None => false
  end.

(** [fs.readFile(p)]: the bytes of a regular file, or a rejection. *)
Definition readFile (fs : gmap string Node) (p : string)
  : FsError + list Byte.byte :=
  match fs !! path_resolve p with
  | Some (RegularFile content) => inr content
  | Some Directory => inl EISDIR
  | Some UnreadableFile => inl (EACCES p)
  | None => inl (ENOENT p)
  end.

(** [setHeaders] of [app.useStaticAssets]. *)
Definition setHeaders (res : Reply) : Reply :=
  Res.header "Cache-Control" "public,max-age=31536000,immutable" res.

(** A file of the static bundle ([public/<name>]) sent by the static
    assets: the status and the header this file's code sets on it. *)
Definition static_handler (name : string) : Log * Outcome :=
  ([], Replied (Res.sendFile setHeaders name fresh)).

(** [app.getHttpAdapter().get('/', ...)] *)
Definition index_handler : Log * Outcome :=
  let res := Res.type "text/html" fresh in
  let res := Res.header "Cache-Control" "no-cache, no-store, must-revalidate" res in
  let res := Res.header "Pragma" "no-cache" res in
  let res := Res.header "Expires" "0" res in
  ([], Replied (Res.sendFile setHeaders "index.html" res)).

(** [app.getHttpAdapter().get('/assets/snapshot.jpg', async ...)].  The
    handler awaits [pathExists] and then [readFile]: [fs_check] is the
    filesystem at the first await and [fs_read] at the second. *)
Definition snapshot_handler (configService : ConfigService)
    (fs_check fs_read : gmap string Node) : Log * Outcome :=
  let wallpaper := loginWallpaper (ui configService) in
  if Js.truthy_str wallpaper then
    if negb (pathExists fs_check (Js.template_str wallpaper)) then
      ([(LevelError,
         "Custom Login Wallpaper does not exist: " +:+ Js.template_str wallpaper)],
       Replied (Res.send (Text "Not Found") (Res.code 404 fresh)))
    else
      let res := Res.type "image/jpg" fresh in
      let res := Res.header "Cache-Control" "public,max-age=31536000,immutable" res in
      match readFile fs_read (path_resolve (Js.template_str wallpaper)) with
      | inr content => ([], Replied (Res.send (Buffer content) res))
      | inl e => ([], Rejected e)
      end
  else
    let res := Res.header "Cache-Control" "public,max-age=31536000,immutable" fresh in
    ([], Replied (Res.sendFile setHeaders "assets/snapshot.jpg" res)).

(** ** Routing *)

(** What a request meets outside the handlers above: the files of the
    static bundle, the application's API router (an external collaborator:
    [None] when no API route matches), the answer of the CORS plugin of
    [app.enableCors] to an [OPTIONS] request (an external collaborator
    too), and the filesystem at the two awaits of the wallpaper handler. *)
Record World := {
  public : gset string;
  api : Request -> option Reply;
  cors : Request -> Reply;
  fs_check : gmap string Node;
  fs_read : gmap string Node;
}.

(** [app.setGlobalPrefix('/api')] *)
Definition globalPrefix : string := "/api".

Definition under_api_prefix (p : string) : bool :=
  String.prefix (globalPrefix +:+ "/") p.

(** The file of the static root a URL path names. *)
Definition static_name (p : string) : option string :=
  match p with
  | String "/" rest => Some rest
  | _ => None
  end.

(** Modelled from the spec: [SpaFilter] ([src/core/spa/spa.filter.ts]) is
    not among the sources.  The specification gives its contract: a request
    that matched no route gets the shell document with the headers of [GET /],
    except under the API prefix, where the filter does not intercept and the
    API layer's 404 surfaces. *)
Definition SpaFilter (req : Request) : Log * Outcome :=
  if under_api_prefix (url_path req) then ([], NotFound)
  else index_handler.

(** The two explicit routes. *)
Definition explicit_route (configService : ConfigService) (w : World)
    (req : Request) : option (Log * Outcome) :=
  if decide (method req = GET) then
    if String.eqb (url_path req) "/" then Some index_handler
    else if String.eqb (url_path req) "/assets/snapshot.jpg" then
      Some (snapshot_handler configService (fs_check w) (fs_read w))
    else None
  else None.

(** A route of the API router. *)
Definition api_route (w : World) (req : Request) : option (Log * Outcome) :=
  if under_api_prefix (url_path req) then
    match api w req with
    | Some r => Some ([], Replied r)
    | None => None
    end
  else None.

(** The wildcard route of the static asset plugin. *)
Definition static_route (w : World) (req : Request) : option (Log * Outcome) :=
  if decide (method req = GET) then
    match static_name (url_path req) with
    | Some name =>
        if decide (name ∈ public w) then Some (static_handler name) else None
    | None => None
    end
  else None.

(** [app.enableCors]: the CORS plugin answers an [OPTIONS] request on any
    path, before a route is looked up. *)
Definition cors_route (w : World) (req : Request) : option (Log * Outcome) :=
  if decide (method req = OPTIONS) then Some ([], Replied (cors w req))
  else None.

(** The handler a request matches, if any: the CORS plugin takes the
    [OPTIONS] requests; explicit routes and API routes are specific and win
    over the static wildcard. *)
Definition match_route (configService : ConfigService) (w : World)
    (req : Request) : option (Log * Outcome) :=
  match cors_route w req with
  | Some o => Some o
  | None =>
      match explicit_route configService w req with
      | Some o => Some o
      | None =>
          match api_route w req with
          | Some o => Some o
          | None => static_route w req
          end
      end
  end.

(** One request through the server; the filter runs when nothing matched. *)
Definition dispatch (configService : ConfigService) (w : World)
    (req : Request) : Log * Outcome :=
  match match_route configService w req with
  | Some o => o
  | None => SpaFilter req
  end.

(** The server over a sequence of requests, each in the world it arrives
    in.  The log is the only thing carried from one request to the next. *)
Fixpoint serve (configService : ConfigService) (st : Log)
    (reqs : list (World * Request)) : Log * list Outcome :=
  match reqs with
  | [] => (st, [])
  | (w, req) :: rest =>
      let '(l, o) := dispatch configService w req in
      let '(st', os) := serve configService (st ++ l)%list rest in
      (st', o :: os)
  end.

(** ** The responses of the core *)


(** The replies of the long-cache class: a file of the static bundle, and
    the wallpaper image, custom (a buffer) or default (the bundled file). *)
Inductive ImmutableResponse (configService : ConfigService) : Reply -> Prop :=
| ImmStatic name l r :
    static_handler name = (l, Replied r) -> ImmutableResponse configService r
| ImmWallpaperCustom fs1 fs2 l r content :
    snapshot_handler configService fs1 fs2 = (l, Replied r) ->
    payload r = Buffer content ->
    ImmutableResponse configService r
| ImmWallpaperDefault fs1 fs2 l r :
    snapshot_handler configService fs1 fs2 = (l, Replied r) ->
    payload r = File "assets/snapshot.jpg" ->
    ImmutableResponse configService r.

End Handlers.

(** ** Cache policy classes *)

(** The header sets of the two classes, with the values the code writes. *)
Definition STATIC_IMMUTABLE : list (string * string) :=
  [("Cache-Control", "public,max-age=31536000,immutable")].

Definition DYNAMIC_NO_CACHE : list (string * string) :=
  [("Cache-Control", "no-cache, no-store, must-revalidate");
   ("Pragma", "no-cache");
   ("Expires", "0")].

(** The [Cache-Control] value of the long-cache class as the specification
    words it. *)
Definition spec_STATIC_IMMUTABLE_value : string :=
  "public, max-age=31536000, immutable".

Definition cache_header_names : list string :=
  ["Cache-Control"; "Pragma"; "Expires"].

(** The cache headers of a reply, in the order they were set. *)
Definition cache_headers (r : Reply) : list (string * string) :=
  List.filter (fun kv => existsb (String.eqb (fst kv)) cache_header_names)
    (headers r).

(** The reply has header [kv] with exactly that value. *)
Definition carries (r : Reply) (kv : string * string) : bool :=
  match get_header (fst kv) (headers r) with
  | Some v => String.eqb v (snd kv)
  | None => false
  end.

(** Some header of the class is on the reply. *)
Definition has_from (cls : list (string * string)) (r : Reply) : bool :=
  existsb (carries r) cls.


Definition mixes_classes (r : Reply) : bool :=
  has_from STATIC_IMMUTABLE r && has_from DYNAMIC_NO_CACHE r.

(** ** Startup *)

(** The line [bootstrap] logs just before [listen]:
    [`Console v${configService.package.version} is listening on port ${configService.ui.port}`] *)
Definition startup_line (configService : ConfigService) : string :=
  "Console v" +:+ package_version configService +:+
  " is listening on port " +:+ Js.template_num (port (ui configService)).

Record Listening := {
  startup_log : Log;
  bound_host : string;
  bound_port : N;
}.

(** [app.listen(port, host)]: the address the server is bound to, or
    [None] for a port above 65535, where [listen] throws. *)
Definition listen (p : N) (host : string) : option (string * N) :=
  if (p <=? 65535)%N then Some (host, p) else None.

(** [bootstrap]: [loaded] is what [await getStartupConfig()] gives, [None]
    when it rejects; then nothing after it runs and the server never
    listens.  Otherwise the line is logged and the server is asked to
    listen: [app.listen(configService.ui.port || 8080, '0.0.0.0')].  The
    result is the listening server; there is none when [listen] throws
    (the line is logged by then, and the process ends). *)
Definition bootstrap (loaded : option StartupConfig)
    (configService : ConfigService) : option Listening :=
  match loaded with
  | None => None
  | Some _ =>
      let line := [(LevelWarn, startup_line configService)] in
      match listen (Js.or_num (port (ui configService)) 8080) "0.0.0.0" with
      | Some (host, p) =>
          Some {| startup_log := line; bound_host := host; bound_port := p |}
      | None => None
      end
  end.

(** ** Concrete inputs *)

Module Sample.

(** A resolver for a process whose working directory is the root. *)
Definition resolve (p : string) : string :=
  if String.prefix "/" p then p else "/" +:+ p.

Definition no_override : StartupConfig :=
  {| debug := false; cspWsOveride := None |}.

Definition with_override : StartupConfig :=
  {| debug := false; cspWsOveride := Some "wss://extra.example" |}.

Definition req (m : Method) (p : string) (h : option string) : Request :=
  {| method := m; url_path := p; headers_host := h |}.

Definition config (prt : option N) (wall : option string) : ConfigService :=
  {| ui := {| port := prt; loginWallpaper := wall |};
     package_version := "4.5.1" |}.

Definition wallpaper : string := "/var/lib/homebridge/wall.jpg".

Definition jpeg : list Byte.byte := [Byte.xff; Byte.xd8; Byte.xff; Byte.xd9].

Definition fs_empty : gmap string Node := ∅.

Definition fs_with_file : gmap string Node :=
  {[ wallpaper := RegularFile jpeg ]}.

Definition fs_with_dir : gmap string Node :=
  {[ wallpaper := Directory ]}.


Definition world (fs1 fs2 : gmap string Node) : World :=
  {| public := {[ "index.html"; "main.js"; "assets/snapshot.jpg" ]};
     api := fun _ => None;
     cors := fun _ => {| statusCode := 204; headers := []; payload := NoPayload |};
     fs_check := fs1;
     fs_read := fs2 |}.


End Sample.

(** ** The policy object *)

Module Helmet.

(** The [directives] object given to [contentSecurityPolicy], under the
    keys the code writes. *)
Definition directives (startupConfig : StartupConfig)
  : list (string * list Csp.Source) :=
  [("defaultSrc", Csp.defaultSrc);
   ("scriptSrc", Csp.scriptSrc);
   ("styleSrc", Csp.styleSrc);
   ("imgSrc", Csp.imgSrc);
   ("workerSrc", Csp.workerSrc);
   ("connectSrc", Csp.connectSrc startupConfig)].

(** Every directive, evaluated on a request. *)
Definition policy (startupConfig : StartupConfig) (req : Request)
  : list (string * string) :=
  map (fun d => (fst d, Csp.render req (snd d))) (directives startupConfig).

End Helmet.

(** * Properties *)

(** ** Strings and truthiness *)

Lemma truthy_str_Some (p : string) :
  p ≠ "" -> Js.truthy_str (Some p) = true.
Proof. destruct p; [congruence | reflexivity]. Qed.

Lemma or_empty_spec (v : option string) :
  Js.or_empty v = match v with Some ov => ov | None => "" end.
Proof. destruct v as [[|c s]|]; reflexivity. Qed.

Lemma prefix_app (n post : string) : String.prefix n (n +:+ post) = true.
Proof.
  induction n as [|c n IH]; simpl.
  - by destruct post.
  - destruct (ascii_dec c c); [exact IH | congruence].
Qed.

Lemma includes_prefix (n hay : string) :
  String.prefix n hay = true -> Js.includes n hay = true.
Proof. intros H. destruct hay; cbn [Js.includes]; rewrite H; reflexivity. Qed.

(** [includes] finds every occurrence. *)
Lemma includes_app (n pre post : string) :
  Js.includes n (pre +:+ n +:+ post) = true.
Proof.
  induction pre as [|c pre IH].
  - change ("" +:+ n +:+ post) with (n +:+ post).
    apply includes_prefix, prefix_app.
  - change (String c pre +:+ n +:+ post) with (String c (pre +:+ n +:+ post)).
    cbn [Js.includes]. rewrite IH. by destruct (String.prefix _ _).
Qed.

Lemma prefix_refl (n : string) : String.prefix n n = true.
Proof.
  induction n as [|c n IH]; simpl; [reflexivity |].
  destruct (ascii_dec c c); [exact IH | congruence].
Qed.

Lemma includes_append_r (n pre t : string) :
  Js.includes n t = true -> Js.includes n (pre +:+ t) = true.
Proof.
  intros H. induction pre as [|c pre IH]; [exact H |].
  change (String c pre +:+ t) with (String c (pre +:+ t)).
  cbn [Js.includes]. rewrite IH. by destruct (String.prefix _ _).
Qed.

(** ** Content security policy *)

(** C1, as the specification states it, fails: a request without a host
    header gets the text [undefined] where the host would be, not an empty
    substring. *)
Lemma connect_src_absent_host_not_empty :
  Csp.connect_src Sample.no_override (Sample.req GET "/" None)
    = "'self' wss://undefined ws://undefined "
  ∧ Csp.connect_src Sample.no_override (Sample.req GET "/" None)
    ≠ "'self' " +:+ Csp.spec_dynamic_segment "" "".
Proof. split; [reflexivity | discriminate]. Qed.

(** C1, amended: for every request the [connect-src] directive is ['self']
    followed by [wss://<host> ws://<host> <override>], where [<host>] is the
    host header verbatim when the request has one and the text [undefined]
    when it has none (no error either way), and [<override>] is the
    configured [cspWsOveride] or the empty string when absent; for host
    [example.com:8080] and no override the segment is
    [wss://example.com:8080 ws://example.com:8080 ] with nothing after the
    last space. *)
Theorem connect_src_directive (startupConfig : StartupConfig) (req : Request) :
  Csp.connect_src startupConfig req
    = "'self' " +:+
      Csp.spec_dynamic_segment
        (match headers_host req with Some h => h | None => "undefined" end)
        (match cspWsOveride startupConfig with Some ov => ov | None => "" end)
  ∧ (∀ m p, Csp.connect_src Sample.no_override (Sample.req m p (Some "example.com:8080"))
            = "'self' " +:+ "wss://example.com:8080 ws://example.com:8080 ").
Proof.
  split; [| reflexivity].
  unfold Csp.connect_src, Csp.render, Csp.connectSrc, Csp.connectSrc_fn,
    Csp.spec_dynamic_segment.
  cbn [Csp.join_sp map Csp.eval_source].
  rewrite or_empty_spec.
  destruct (headers_host req); reflexivity.
Qed.

(** With the override [wss://extra.example] the directive ends with it. *)
Example connect_src_with_override :
  Csp.connect_src Sample.with_override
    (Sample.req GET "/" (Some "example.com:8080"))
  = "'self' wss://example.com:8080 ws://example.com:8080 wss://extra.example".
Proof. reflexivity. Qed.

(** ** The fallback filter *)

Section Routing.

Variable path_resolve : string -> string.

(** C2: a request under the [/api] prefix that matches no route is not
    answered by the fallback filter with the shell document; the not-found
    error of the API layer surfaces. *)
Theorem api_not_intercepted (configService : ConfigService) (w : World)
    (req : Request) :
  under_api_prefix (url_path req) = true ->
  match_route path_resolve configService w req = None ->
  dispatch path_resolve configService w req = ([], NotFound)
  ∧ dispatch path_resolve configService w req ≠ index_handler.
Proof.
  intros Hapi Hnone. unfold dispatch, SpaFilter.
  rewrite Hnone, Hapi. split; [reflexivity | discriminate].
Qed.

End Routing.

Lemma api_not_intercepted_witness :
  dispatch Sample.resolve (Sample.config None None)
    (Sample.world Sample.fs_empty Sample.fs_empty)
    (Sample.req GET "/api/nope" None) = ([], NotFound)
  ∧ dispatch Sample.resolve (Sample.config None None)
      (Sample.world Sample.fs_empty Sample.fs_empty)
      (Sample.req GET "/api/nope" None) ≠ index_handler.
Proof.
  apply (api_not_intercepted Sample.resolve); vm_compute; reflexivity.
Defined.

(** ** The wallpaper handler *)

Section Wallpaper.

Variable path_resolve : string -> string.

(** Resolving an absolute path gives the path back. *)
Hypothesis path_resolve_idem :
  ∀ p, path_resolve (path_resolve p) = path_resolve p.

Local Abbreviation snapshot := (snapshot_handler path_resolve).

Lemma snapshot_missing (configService : ConfigService) (p : string)
    (fs1 fs2 : gmap string Node) :
  loginWallpaper (ui configService) = Some p -> p ≠ "" ->
  pathExists path_resolve fs1 p = false ->
  snapshot configService fs1 fs2
    = ([(LevelError, "Custom Login Wallpaper does not exist: " +:+ p)],
       Replied {| statusCode := 404; headers := []; payload := Text "Not Found" |}).
Proof.
  intros Hp Hne Hex. unfold snapshot_handler.
  rewrite Hp, (truthy_str_Some p Hne). cbn [Js.template_str].
  rewrite Hex. reflexivity.
Qed.

Lemma snapshot_read (configService : ConfigService) (p : string)
    (fs1 fs2 : gmap string Node) :
  loginWallpaper (ui configService) = Some p -> p ≠ "" ->
  pathExists path_resolve fs1 p = true ->
  snapshot configService fs1 fs2
    = match readFile path_resolve fs2 (path_resolve p) with
      | inr content =>
          ([], Replied {| statusCode := 200;
                          headers := [("Content-Type", "image/jpg");
                                      ("Cache-Control", "public,max-age=31536000,immutable")];
                          payload := Buffer content |})
      | inl e => ([], Rejected e)
      end.
Proof.
  intros Hp Hne Hex. unfold snapshot_handler.
  rewrite Hp, (truthy_str_Some p Hne). cbn [Js.template_str].
  rewrite Hex. cbn [negb]. destruct (readFile _ _ _); reflexivity.
Qed.

Lemma snapshot_default (configService : ConfigService)
    (fs1 fs2 : gmap string Node) :
  Js.truthy_str (loginWallpaper (ui configService)) = false ->
  snapshot configService fs1 fs2
    = ([], Replied {| statusCode := 200;
                      headers := [("Cache-Control", "public,max-age=31536000,immutable")];
                      payload := File "assets/snapshot.jpg" |}).
Proof. intros H. unfold snapshot_handler. rewrite H. reflexivity. Qed.

(** The three ways the handler can end with a reply. *)
Lemma snapshot_replied (configService : ConfigService)
    (fs1 fs2 : gmap string Node) (l : Log) (r : Reply) :
  snapshot configService fs1 fs2 = (l, Replied r) ->
  r = {| statusCode := 404; headers := []; payload := Text "Not Found" |}
  ∨ (∃ content,
       r = {| statusCode := 200;
              headers := [("Content-Type", "image/jpg");
                          ("Cache-Control", "public,max-age=31536000,immutable")];
              payload := Buffer content |})
  ∨ r = {| statusCode := 200;
           headers := [("Cache-Control", "public,max-age=31536000,immutable")];
           payload := File "assets/snapshot.jpg" |}.
Proof.
  unfold snapshot_handler.
  destruct (Js.truthy_str _).
  - destruct (pathExists _ _ _); cbn [negb].
    + destruct (readFile _ _ _) as [e|content]; intros [= <- <-];
        right; left; by exists content.
    + intros [= <- <-]. by left.
  - intros [= <- <-]. by right; right.
Qed.

Lemma dispatch_snapshot (configService : ConfigService) (w : World)
    (req : Request) :
  method req = GET -> url_path req = "/assets/snapshot.jpg" ->
  dispatch path_resolve configService w req
    = snapshot configService (fs_check w) (fs_read w).
Proof.
  intros Hm Hp. unfold dispatch, match_route, cors_route, explicit_route.
  rewrite Hm, Hp. reflexivity.
Qed.

(** C3: with [loginWallpaper] set (a non-empty string) to a path that does
    not exist when the request is handled, [GET /assets/snapshot.jpg] logs an error naming the
    path and replies 404 with the plain body [Not Found]; the server goes on,
    and the next request to the route checks the path again: once the file
    is there, it is served. *)
Theorem missing_wallpaper_not_found (configService : ConfigService)
    (p : string) (st : Log) (w w' : World) (req : Request)
    (content : list Byte.byte) :
  loginWallpaper (ui configService) = Some p -> p ≠ "" ->
  method req = GET -> url_path req = "/assets/snapshot.jpg" ->
  pathExists path_resolve (fs_check w) p = false ->
  pathExists path_resolve (fs_check w') p = true ->
  readFile path_resolve (fs_read w') (path_resolve p) = inr content ->
  dispatch path_resolve configService w req
    = ([(LevelError, "Custom Login Wallpaper does not exist: " +:+ p)],
       Replied {| statusCode := 404; headers := []; payload := Text "Not Found" |})
  ∧ serve path_resolve configService st [(w, req); (w', req)]
    = ((st ++ [(LevelError, "Custom Login Wallpaper does not exist: " +:+ p)])%list,
       [Replied {| statusCode := 404; headers := []; payload := Text "Not Found" |};
        Replied {| statusCode := 200;
                   headers := [("Content-Type", "image/jpg");
                               ("Cache-Control", "public,max-age=31536000,immutable")];
                   payload := Buffer content |}]).
Proof.
  intros Hp Hne Hm Hu Hmiss Hex Hread.
  assert (H1 := snapshot_missing configService p (fs_check w) (fs_read w) Hp Hne Hmiss).
  assert (H2 := snapshot_read configService p (fs_check w') (fs_read w') Hp Hne Hex).
  rewrite Hread in H2.
  split.
  - by rewrite dispatch_snapshot.
  - cbn [serve]. rewrite !dispatch_snapshot, H1, H2 by done.
    by rewrite app_nil_r.
Qed.

(** C4, as the specification states it, fails on the default image: the
    handler sets no [Content-Type] there. *)
Lemma default_wallpaper_no_content_type :
  snapshot_handler Sample.resolve (Sample.config None None)
      Sample.fs_empty Sample.fs_empty
    = ([], Replied {| statusCode := 200;
                      headers := [("Cache-Control", "public,max-age=31536000,immutable")];
                      payload := File "assets/snapshot.jpg" |})
  ∧ get_header "Content-Type"
      [("Cache-Control", "public,max-age=31536000,immutable")]
    ≠ Some "image/jpg".
Proof. split; [reflexivity | discriminate]. Qed.

(** C4, amended: on the success paths of [GET /assets/snapshot.jpg], with
    [loginWallpaper] unset the reply is the bundled [assets/snapshot.jpg]
    sent as a static file, with the long-cache [Cache-Control] and no
    [Content-Type] set by the handler; with [loginWallpaper] set to an
    existing file the body is that file's bytes, with [Content-Type]
    [image/jpg] and the long-cache [Cache-Control]. *)
Theorem wallpaper_success_paths (configService : ConfigService)
    (fs : gmap string Node) :
  (Js.truthy_str (loginWallpaper (ui configService)) = false ->
   ∀ fs1 fs2,
     snapshot configService fs1 fs2
       = ([], Replied {| statusCode := 200;
                         headers := [("Cache-Control", "public,max-age=31536000,immutable")];
                         payload := File "assets/snapshot.jpg" |}))
  ∧ (∀ p content,
       loginWallpaper (ui configService) = Some p -> p ≠ "" ->
       fs !! path_resolve p = Some (RegularFile content) ->
       snapshot configService fs fs
         = ([], Replied {| statusCode := 200;
                           headers := [("Content-Type", "image/jpg");
                                       ("Cache-Control", "public,max-age=31536000,immutable")];
                           payload := Buffer content |})).
Proof.
  split.
  - intros H fs1 fs2. by apply snapshot_default.
  - intros p content Hp Hne Hfile.
    rewrite (snapshot_read configService p fs fs Hp Hne).
    + unfold readFile. by rewrite path_resolve_idem, Hfile.
    + unfold pathExists. by rewrite Hfile.
Qed.

End Wallpaper.

Lemma sample_resolve_idem (p : string) :
  Sample.resolve (Sample.resolve p) = Sample.resolve p.
Proof.
  unfold Sample.resolve.
  destruct (String.prefix "/" p) eqn:E; [by rewrite E |].
  by destruct p.
Qed.

Lemma missing_wallpaper_not_found_witness :
  dispatch Sample.resolve (Sample.config None (Some Sample.wallpaper))
      (Sample.world Sample.fs_empty Sample.fs_empty)
      (Sample.req GET "/assets/snapshot.jpg" None)
    = ([(LevelError,
         "Custom Login Wallpaper does not exist: " +:+ Sample.wallpaper)],
       Replied {| statusCode := 404; headers := []; payload := Text "Not Found" |})
  ∧ serve Sample.resolve (Sample.config None (Some Sample.wallpaper)) []
      [(Sample.world Sample.fs_empty Sample.fs_empty,
        Sample.req GET "/assets/snapshot.jpg" None);
       (Sample.world Sample.fs_with_file Sample.fs_with_file,
        Sample.req GET "/assets/snapshot.jpg" None)]
    = (([] ++ [(LevelError,
                "Custom Login Wallpaper does not exist: " +:+ Sample.wallpaper)])%list,
       [Replied {| statusCode := 404; headers := []; payload := Text "Not Found" |};
        Replied {| statusCode := 200;
                   headers := [("Content-Type", "image/jpg");
                               ("Cache-Control", "public,max-age=31536000,immutable")];
                   payload := Buffer Sample.jpeg |}]).
Proof.
  apply (missing_wallpaper_not_found Sample.resolve
           (Sample.config None (Some Sample.wallpaper)) Sample.wallpaper []
           (Sample.world Sample.fs_empty Sample.fs_empty)
           (Sample.world Sample.fs_with_file Sample.fs_with_file)
           (Sample.req GET "/assets/snapshot.jpg" None) Sample.jpeg);
    first [discriminate | vm_compute; reflexivity].
Defined.

Lemma wallpaper_success_paths_witness :
  snapshot_handler Sample.resolve (Sample.config None None)
      Sample.fs_empty Sample.fs_empty
    = ([], Replied {| statusCode := 200;
                      headers := [("Cache-Control", "public,max-age=31536000,immutable")];
                      payload := File "assets/snapshot.jpg" |})
  ∧ snapshot_handler Sample.resolve (Sample.config None (Some Sample.wallpaper))
      Sample.fs_with_file Sample.fs_with_file
    = ([], Replied {| statusCode := 200;
                      headers := [("Content-Type", "image/jpg");
                                  ("Cache-Control", "public,max-age=31536000,immutable")];
                      payload := Buffer Sample.jpeg |}).
Proof.
  split.
  - apply (proj1 (wallpaper_success_paths Sample.resolve sample_resolve_idem
                    (Sample.config None None) Sample.fs_empty)).
    reflexivity.
  - apply (proj2 (wallpaper_success_paths Sample.resolve sample_resolve_idem
                    (Sample.config None (Some Sample.wallpaper))
                    Sample.fs_with_file) Sample.wallpaper Sample.jpeg);
      first [discriminate | vm_compute; reflexivity].
Defined.

(** ** Cache policy *)

Section CachePolicy.

Variable path_resolve : string -> string.

(** C5, amended: every reply of the long-cache class (a file of the
    static bundle, the wallpaper image, default or custom) has
    [Cache-Control] exactly [public,max-age=31536000,immutable]. *)
Theorem immutable_cache_control (configService : ConfigService) (r : Reply) :
  ImmutableResponse path_resolve configService r ->
  get_header "Cache-Control" (headers r)
    = Some "public,max-age=31536000,immutable".
Proof.
  intros [name l r' H | fs1 fs2 l r' content H Hpay | fs1 fs2 l r' H Hpay].
  - by injection H as _ <-.
  - apply snapshot_replied in H as [-> | [[c ->] | ->]]; done.
  - apply snapshot_replied in H as [-> | [[c ->] | ->]]; done.
Qed.

(** C6, on the code: [GET /] reaches the handler that writes the three
    no-cache headers, but [res.sendFile] then runs the [setHeaders] callback
    of the static assets, which overwrites [Cache-Control].  The shell
    document leaves with [Cache-Control: public,max-age=31536000,immutable]
    beside [Pragma: no-cache] and [Expires: 0]: not the no-cache set, and a
    mix of the two classes. *)
Theorem index_cache_control_overwritten (configService : ConfigService)
    (w : World) (req : Request) :
  method req = GET -> url_path req = "/" ->
  match_route path_resolve configService w req = Some index_handler
  ∧ ∃ r, dispatch path_resolve configService w req = ([], Replied r)
         ∧ statusCode r = 200%N
         ∧ payload r = File "index.html"
         ∧ get_header "Content-Type" (headers r) = Some "text/html"
         ∧ cache_headers r
           = [("Cache-Control", "public,max-age=31536000,immutable");
              ("Pragma", "no-cache");
              ("Expires", "0")]
         ∧ cache_headers r ≠ DYNAMIC_NO_CACHE
         ∧ mixes_classes r = true.
Proof.
  intros Hm Hp.
  assert (Hroute : match_route path_resolve configService w req
                   = Some index_handler).
  { unfold match_route, cors_route, explicit_route. by rewrite Hm, Hp. }
  split; [exact Hroute |].
  eexists. unfold dispatch. rewrite Hroute.
  repeat split; try reflexivity. discriminate.
Qed.


(** C10: when [loginWallpaper] is set (a non-empty string) and the path
    does not exist, the 404
    reply has no header set by the handler: no [Cache-Control], [Pragma],
    [Expires] or [Content-Type], so it is in neither cache class. *)
Theorem missing_wallpaper_no_headers (configService : ConfigService)
    (p : string) (fs1 fs2 : gmap string Node) :
  loginWallpaper (ui configService) = Some p -> p ≠ "" ->
  pathExists path_resolve fs1 p = false ->
  ∃ l r, snapshot_handler path_resolve configService fs1 fs2 = (l, Replied r)
         ∧ statusCode r = 404%N
         ∧ payload r = Text "Not Found"
         ∧ headers r = []
         ∧ get_header "Cache-Control" (headers r) = None
         ∧ get_header "Pragma" (headers r) = None
         ∧ get_header "Expires" (headers r) = None
         ∧ get_header "Content-Type" (headers r) = None
         ∧ has_from STATIC_IMMUTABLE r = false
         ∧ has_from DYNAMIC_NO_CACHE r = false.
Proof.
  intros Hp Hne Hmiss. do 2 eexists.
  rewrite (snapshot_missing path_resolve configService p fs1 fs2 Hp Hne Hmiss).
  repeat split; reflexivity.
Qed.

End CachePolicy.

(** C5, as the specification states it, fails: the value the code writes
    has no space after the commas. *)
Lemma static_cache_control_not_spaced :
  ImmutableResponse Sample.resolve (Sample.config None None)
    {| statusCode := 200;
       headers := [("Cache-Control", "public,max-age=31536000,immutable")];
       payload := File "main.js" |}
  ∧ get_header "Cache-Control"
      [("Cache-Control", "public,max-age=31536000,immutable")]
    = Some "public,max-age=31536000,immutable"
  ∧ get_header "Cache-Control"
      [("Cache-Control", "public,max-age=31536000,immutable")]
    ≠ Some spec_STATIC_IMMUTABLE_value.
Proof.
  split; [| split; [reflexivity | discriminate]].
  by apply (ImmStatic Sample.resolve _ "main.js" []).
Qed.



Lemma immutable_cache_control_witness :
  get_header "Cache-Control"
    (headers {| statusCode := 200;
                headers := [("Cache-Control", "public,max-age=31536000,immutable")];
                payload := File "main.js" |})
  = Some "public,max-age=31536000,immutable".
Proof.
  apply (immutable_cache_control Sample.resolve (Sample.config None None)).
  apply (ImmStatic Sample.resolve _ "main.js" []). reflexivity.
Defined.

Lemma index_cache_control_overwritten_witness :
  match_route Sample.resolve (Sample.config None None)
    (Sample.world Sample.fs_empty Sample.fs_empty)
    (Sample.req GET "/" (Some "example.com:8080")) = Some index_handler
  ∧ ∃ r, dispatch Sample.resolve (Sample.config None None)
           (Sample.world Sample.fs_empty Sample.fs_empty)
           (Sample.req GET "/" (Some "example.com:8080")) = ([], Replied r)
         ∧ statusCode r = 200%N
         ∧ payload r = File "index.html"
         ∧ get_header "Content-Type" (headers r) = Some "text/html"
         ∧ cache_headers r
           = [("Cache-Control", "public,max-age=31536000,immutable");
              ("Pragma", "no-cache");
              ("Expires", "0")]
         ∧ cache_headers r ≠ DYNAMIC_NO_CACHE
         ∧ mixes_classes r = true.
Proof.
  apply (index_cache_control_overwritten Sample.resolve
           (Sample.config None None)
           (Sample.world Sample.fs_empty Sample.fs_empty)
           (Sample.req GET "/" (Some "example.com:8080"))); reflexivity.
Defined.


Lemma missing_wallpaper_no_headers_witness :
  ∃ l r, snapshot_handler Sample.resolve
           (Sample.config None (Some Sample.wallpaper))
           Sample.fs_empty Sample.fs_with_file = (l, Replied r)
         ∧ statusCode r = 404%N
         ∧ payload r = Text "Not Found"
         ∧ headers r = []
         ∧ get_header "Cache-Control" (headers r) = None
         ∧ get_header "Pragma" (headers r) = None
         ∧ get_header "Expires" (headers r) = None
         ∧ get_header "Content-Type" (headers r) = None
         ∧ has_from STATIC_IMMUTABLE r = false
         ∧ has_from DYNAMIC_NO_CACHE r = false.
Proof.
  apply (missing_wallpaper_no_headers Sample.resolve
           (Sample.config None (Some Sample.wallpaper)) Sample.wallpaper
           Sample.fs_empty Sample.fs_with_file);
    first [discriminate | vm_compute; reflexivity].
Defined.

(** ** Failures *)

(** A failed read after a successful existence check ends the handler with
    a rejection: nothing is logged and no reply is sent by the handler. *)
Lemma snapshot_read_rejects (path_resolve : string -> string)
    (configService : ConfigService) (p : string)
    (fs1 fs2 : gmap string Node) (e : FsError) :
  loginWallpaper (ui configService) = Some p -> p ≠ "" ->
  pathExists path_resolve fs1 p = true ->
  readFile path_resolve fs2 (path_resolve p) = inl e ->
  snapshot_handler path_resolve configService fs1 fs2 = ([], Rejected e).
Proof.
  intros Hp Hne Hex Hread.
  by rewrite (snapshot_read path_resolve configService p fs1 fs2 Hp Hne Hex), Hread.
Qed.

(** A startup configuration that fails to load stops [bootstrap] before it
    listens. *)
Lemma bootstrap_needs_startup_config (configService : ConfigService) :
  bootstrap None configService = None.
Proof. reflexivity. Qed.

(** C8, on the code: the wallpaper file is there when [pathExists] runs and
    gone when [readFile] runs.  The handler neither logs nor picks a status:
    it ends with the rejection of [readFile].  The same happens, with no
    race, when the configured path is a directory. *)
Theorem wallpaper_read_failure_unhandled :
  pathExists Sample.resolve Sample.fs_with_file Sample.wallpaper = true
  ∧ snapshot_handler Sample.resolve (Sample.config None (Some Sample.wallpaper))
        Sample.fs_with_file Sample.fs_empty
    = ([], Rejected (ENOENT Sample.wallpaper))
  ∧ snapshot_handler Sample.resolve (Sample.config None (Some Sample.wallpaper))
        Sample.fs_with_dir Sample.fs_with_dir
    = ([], Rejected EISDIR).
Proof. repeat split; vm_compute; reflexivity. Qed.

(** ** Startup *)

Lemma bound_port_default (sc : StartupConfig) (configService : ConfigService) :
  (Js.or_num (port (ui configService)) 8080 ≤ 65535)%N ->
  ∃ s, bootstrap (Some sc) configService = Some s
       ∧ bound_host s = "0.0.0.0"
       ∧ bound_port s
         = match port (ui configService) with
           | Some 0%N | None => 8080%N
           | Some n => n
           end.
Proof.
  intros Hr. unfold bootstrap, listen.
  destruct (N.leb_spec (Js.or_num (port (ui configService)) 8080) 65535);
    [| lia].
  eexists. split; [reflexivity |]. split; [reflexivity |].
  cbn. by destruct (port (ui configService)) as [[|n]|].
Qed.

(** X12: The startup line contains the package version, for every
    configuration. *)
Lemma startup_line_has_version (configService : ConfigService) :
  Js.includes (package_version configService) (startup_line configService) = true.
Proof. apply (includes_app _ "Console v"). Qed.

(** X13: With a port configured that is not zero and that a server can
    listen on (at most 65535), the server listens on that port and the line
    names it. *)
Lemma startup_line_has_port (sc : StartupConfig)
    (configService : ConfigService) (n : N) :
  port (ui configService) = Some n -> n ≠ 0%N -> (n ≤ 65535)%N ->
  (∃ s, bootstrap (Some sc) configService = Some s ∧ bound_port s = n)
  ∧ Js.includes (Js.num_to_string n) (startup_line configService) = true.
Proof.
  intros Hp Hn Hr. split.
  - unfold bootstrap, listen, Js.or_num. rewrite Hp.
    destruct (N.eqb_spec n 0) as [|_]; [done |].
    destruct (N.leb_spec n 65535); [| lia]. by eexists.
  - unfold startup_line. rewrite Hp. cbn [Js.template_num].
    do 3 apply includes_append_r. apply includes_prefix, prefix_refl.
Qed.

(** C9, on the code: with no port configured the server listens on
    0.0.0.0:8080 and the line says [port undefined]; with port 0 it listens
    on 8080 and the line says [port 0].  Neither line names 8080. *)
Theorem startup_line_not_bound_port :
  bootstrap (Some Sample.no_override) (Sample.config None None)
    = Some {| startup_log :=
                [(LevelWarn, "Console v4.5.1 is listening on port undefined")];
              bound_host := "0.0.0.0";
              bound_port := 8080 |}
  ∧ Js.includes (Js.num_to_string 8080)
      "Console v4.5.1 is listening on port undefined" = false
  ∧ bootstrap (Some Sample.no_override) (Sample.config (Some 0%N) None)
    = Some {| startup_log :=
                [(LevelWarn, "Console v4.5.1 is listening on port 0")];
              bound_host := "0.0.0.0";
              bound_port := 8080 |}
  ∧ Js.includes (Js.num_to_string 8080)
      "Console v4.5.1 is listening on port 0" = false.
Proof. repeat split; vm_compute; reflexivity. Qed.

(** * Further properties of the code *)

(** ** The policy and the request *)

Lemma policy_rendered (startupConfig : StartupConfig) (req : Request) :
  Helmet.policy startupConfig req
  = [("defaultSrc", "'self'");
     ("scriptSrc", "'self' 'unsafe-inline' 'unsafe-eval'");
     ("styleSrc", "'self' 'unsafe-inline'");
     ("imgSrc", "'self' data: https://raw.githubusercontent.com");
     ("workerSrc", "blob:");
     ("connectSrc", Csp.connect_src startupConfig req)].
Proof. reflexivity. Qed.

(** X1: The policy reads nothing of the request but its host header: two
    requests with the same host header get the same six directives, whatever
    their methods and paths. *)
Theorem policy_depends_on_host (startupConfig : StartupConfig)
    (req1 req2 : Request) :
  headers_host req1 = headers_host req2 ->
  Helmet.policy startupConfig req1 = Helmet.policy startupConfig req2.
Proof.
  intros H. rewrite !policy_rendered. do 6 f_equal.
  unfold Csp.connect_src, Csp.render, Csp.connectSrc.
  cbn [map Csp.eval_source]. unfold Csp.connectSrc_fn. by rewrite H.
Qed.

Lemma policy_depends_on_host_witness :
  Helmet.policy Sample.with_override
    (Sample.req GET "/" (Some "example.com:8080"))
  = Helmet.policy Sample.with_override
      (Sample.req POST "/api/auth/login" (Some "example.com:8080")).
Proof.
  apply (policy_depends_on_host Sample.with_override
           (Sample.req GET "/" (Some "example.com:8080"))
           (Sample.req POST "/api/auth/login" (Some "example.com:8080"))).
  reflexivity.
Defined.

(** X2: An override that is absent or the empty string adds nothing: the
    [connect-src] directive then ends with the space that follows the
    [ws://] source. *)
Theorem connect_src_without_override (startupConfig : StartupConfig)
    (req : Request) :
  Js.truthy_str (cspWsOveride startupConfig) = false ->
  Csp.connect_src startupConfig req
  = "'self' wss://" +:+ Js.template_str (headers_host req) +:+
    " ws://" +:+ Js.template_str (headers_host req) +:+ " ".
Proof.
  intros H. unfold Csp.connect_src, Csp.render, Csp.connectSrc.
  cbn [map Csp.eval_source Csp.join_sp].
  unfold Csp.connectSrc_fn, Js.or_empty. rewrite H. reflexivity.
Qed.

Lemma connect_src_without_override_witness :
  Csp.connect_src {| debug := true; cspWsOveride := Some "" |}
    (Sample.req GET "/" (Some "example.com:8080"))
  = "'self' wss://" +:+ "example.com:8080" +:+
    " ws://" +:+ "example.com:8080" +:+ " ".
Proof.
  apply (connect_src_without_override
           {| debug := true; cspWsOveride := Some "" |}
           (Sample.req GET "/" (Some "example.com:8080"))).
  reflexivity.
Defined.

(** ** The wallpaper handler and the filesystem *)

Section WallpaperFilesystem.

Variable path_resolve : string -> string.

Hypothesis path_resolve_idem :
  ∀ p, path_resolve (path_resolve p) = path_resolve p.

Local Abbreviation snapshot := (snapshot_handler path_resolve).

(** X3: The handler looks at the filesystem only as far as it needs: with no
    wallpaper configured it never consults it, and when the configured path
    is missing at the existence check the file is never read. *)
Theorem snapshot_reads_only_when_present (configService : ConfigService) :
  (Js.truthy_str (loginWallpaper (ui configService)) = false ->
   ∀ fs1 fs2 fs1' fs2',
     snapshot configService fs1 fs2 = snapshot configService fs1' fs2')
  ∧ (∀ p fs1,
       loginWallpaper (ui configService) = Some p ->
       pathExists path_resolve fs1 p = false ->
       ∀ fs2 fs2',
         snapshot configService fs1 fs2 = snapshot configService fs1 fs2').
Proof.
  split.
  - intros H fs1 fs2 fs1' fs2'. by rewrite !snapshot_default.
  - intros p fs1 Hp Hmiss fs2 fs2'. unfold snapshot_handler.
    rewrite Hp. destruct (Js.truthy_str (Some p)); [| reflexivity].
    cbn [Js.template_str]. by rewrite Hmiss.
Qed.

(** X4: The handler logs exactly when it replies 404: one error line naming
    the configured path.  A served image and a failed read leave the log
    untouched. *)
Theorem snapshot_logs_only_on_404 (configService : ConfigService)
    (fs1 fs2 : gmap string Node) :
  fst (snapshot configService fs1 fs2)
  = match snd (snapshot configService fs1 fs2) with
    | Replied r =>
        if N.eqb (statusCode r) 404 then
          [(LevelError,
            "Custom Login Wallpaper does not exist: " +:+
            Js.template_str (loginWallpaper (ui configService)))]
        else []
    | Rejected _ | NotFound => []
    end.
Proof.
  unfold snapshot_handler.
  destruct (Js.truthy_str _); [| reflexivity].
  destruct (pathExists _ _ _); [| reflexivity].
  cbn [negb]. by destruct (readFile _ _ _).
Qed.

(** X5: The handler ends with a rejection exactly when a wallpaper is
    configured, the path passes the existence check and the read fails; the
    rejection is the read's error, and nothing is logged. *)
Theorem snapshot_rejects_iff (configService : ConfigService)
    (fs1 fs2 : gmap string Node) (l : Log) (e : FsError) :
  snapshot configService fs1 fs2 = (l, Rejected e)
  ↔ l = []
    ∧ ∃ p, loginWallpaper (ui configService) = Some p ∧ p ≠ ""
           ∧ pathExists path_resolve fs1 p = true
           ∧ readFile path_resolve fs2 (path_resolve p) = inl e.
Proof.
  split.
  - unfold snapshot_handler.
    destruct (loginWallpaper (ui configService)) as [p|] eqn:Hp;
      [| discriminate].
    destruct p as [|c p'] eqn:Ep; [discriminate |].
    rewrite <- Ep. replace (Js.truthy_str (Some p)) with true by by subst.
    cbn [Js.template_str].
    destruct (pathExists _ _ _) eqn:Hex; cbn [negb]; [| discriminate].
    destruct (readFile _ _ _) as [e'|content] eqn:Hread; [| discriminate].
    intros [= <- <-]. split; [reflexivity |].
    exists p. repeat split; try done. by subst.
  - intros [-> (p & Hp & Hne & Hex & Hread)].
    by apply snapshot_read_rejects with (p := p).
Qed.

(** X6: The bytes served are those of the file when it is read, not when its
    existence was checked: a file replaced between the two is served in its
    new state. *)
Theorem wallpaper_bytes_at_read (configService : ConfigService) (p : string)
    (fs1 fs2 : gmap string Node) (content : list Byte.byte) :
  loginWallpaper (ui configService) = Some p -> p ≠ "" ->
  pathExists path_resolve fs1 p = true ->
  fs2 !! path_resolve p = Some (RegularFile content) ->
  snapshot configService fs1 fs2
  = ([], Replied {| statusCode := 200;
                    headers := [("Content-Type", "image/jpg");
                                ("Cache-Control", "public,max-age=31536000,immutable")];
                    payload := Buffer content |}).
Proof.
  intros Hp Hne Hex Hfile.
  rewrite (snapshot_read path_resolve configService p fs1 fs2 Hp Hne Hex).
  unfold readFile. by rewrite path_resolve_idem, Hfile.
Qed.


End WallpaperFilesystem.

Lemma snapshot_reads_only_when_present_witness :
  snapshot_handler Sample.resolve (Sample.config None (Some ""))
    Sample.fs_empty Sample.fs_empty
  = snapshot_handler Sample.resolve (Sample.config None (Some ""))
      Sample.fs_with_file Sample.fs_with_dir
  ∧ snapshot_handler Sample.resolve (Sample.config None (Some Sample.wallpaper))
      Sample.fs_empty Sample.fs_with_file
    = snapshot_handler Sample.resolve (Sample.config None (Some Sample.wallpaper))
        Sample.fs_empty Sample.fs_with_dir.
Proof.
  split.
  - apply (proj1 (snapshot_reads_only_when_present Sample.resolve
                    (Sample.config None (Some "")))).
    reflexivity.
  - apply (proj2 (snapshot_reads_only_when_present Sample.resolve
                    (Sample.config None (Some Sample.wallpaper)))
             Sample.wallpaper Sample.fs_empty); vm_compute; reflexivity.
Defined.

Lemma snapshot_rejects_iff_witness :
  snapshot_handler Sample.resolve (Sample.config None (Some Sample.wallpaper))
    Sample.fs_with_file Sample.fs_empty
  = ([], Rejected (ENOENT Sample.wallpaper)).
Proof.
  apply (proj2 (snapshot_rejects_iff Sample.resolve
                  (Sample.config None (Some Sample.wallpaper))
                  Sample.fs_with_file Sample.fs_empty []
                  (ENOENT Sample.wallpaper))).
  split; [reflexivity |].
  exists Sample.wallpaper.
  repeat split; first [discriminate | vm_compute; reflexivity].
Defined.

Lemma wallpaper_bytes_at_read_witness :
  snapshot_handler Sample.resolve (Sample.config None (Some Sample.wallpaper))
    Sample.fs_with_file
    {[ Sample.wallpaper := RegularFile [Byte.x89; Byte.x50] ]}
  = ([], Replied {| statusCode := 200;
                    headers := [("Content-Type", "image/jpg");
                                ("Cache-Control", "public,max-age=31536000,immutable")];
                    payload := Buffer [Byte.x89; Byte.x50] |}).
Proof.
  apply (wallpaper_bytes_at_read Sample.resolve sample_resolve_idem
           (Sample.config None (Some Sample.wallpaper)) Sample.wallpaper);
    first [discriminate | vm_compute; reflexivity].
Defined.


(** ** Routes *)

Section Routes.

Variable path_resolve : string -> string.

(** X8: The shell document leaves with the long-cache [Cache-Control]
    whichever way it is fetched: with [index.html] in the static bundle,
    [GET /index.html] and [GET /] both send the file [index.html] with
    [Cache-Control: public,max-age=31536000,immutable]. *)
Theorem shell_long_cache_on_both_routes (configService : ConfigService)
    (w : World) (host : option string) :
  "index.html" ∈ public w ->
  ∃ r1 r2,
    dispatch path_resolve configService w
      {| method := GET; url_path := "/index.html"; headers_host := host |}
    = ([], Replied r1)
    ∧ dispatch path_resolve configService w
        {| method := GET; url_path := "/"; headers_host := host |}
      = ([], Replied r2)
    ∧ payload r1 = File "index.html"
    ∧ payload r2 = File "index.html"
    ∧ get_header "Cache-Control" (headers r1)
      = Some "public,max-age=31536000,immutable"
    ∧ get_header "Cache-Control" (headers r2)
      = Some "public,max-age=31536000,immutable".
Proof.
  intros Hin.
  exists {| statusCode := 200;
            headers := [("Cache-Control", "public,max-age=31536000,immutable")];
            payload := File "index.html" |}.
  eexists. split; [| split; [reflexivity |]].
  - unfold dispatch, match_route, cors_route, explicit_route, api_route,
      static_route.
    cbn [method url_path]. change (under_api_prefix "/index.html") with false.
    cbn. by repeat case_decide.
  - repeat split; reflexivity.
Qed.

End Routes.

Lemma shell_long_cache_on_both_routes_witness :
  ∃ r1 r2,
    dispatch Sample.resolve (Sample.config None None)
      (Sample.world Sample.fs_empty Sample.fs_empty)
      {| method := GET; url_path := "/index.html"; headers_host := None |}
    = ([], Replied r1)
    ∧ dispatch Sample.resolve (Sample.config None None)
        (Sample.world Sample.fs_empty Sample.fs_empty)
        {| method := GET; url_path := "/"; headers_host := None |}
      = ([], Replied r2)
    ∧ payload r1 = File "index.html"
    ∧ payload r2 = File "index.html"
    ∧ get_header "Cache-Control" (headers r1)
      = Some "public,max-age=31536000,immutable"
    ∧ get_header "Cache-Control" (headers r2)
      = Some "public,max-age=31536000,immutable".
Proof.
  apply (shell_long_cache_on_both_routes Sample.resolve
           (Sample.config None None)
           (Sample.world Sample.fs_empty Sample.fs_empty) None).
  apply (bool_decide_unpack _). vm_compute. exact I.
Defined.

(** ** The listening port *)

(** X11: When [bootstrap] ends with a listening server, it listens on
    0.0.0.0, on a port that is never 0 and never above 65535: the configured
    port when that is not zero, 8080 otherwise; exactly one line was logged,
    at warning level.  With a configured port above 65535 there is no
    listening server. *)
Theorem listen_port_never_zero (sc : StartupConfig)
    (configService : ConfigService) :
  (∀ s, bootstrap (Some sc) configService = Some s ->
        bound_host s = "0.0.0.0"
        ∧ bound_port s ≠ 0%N
        ∧ (bound_port s ≤ 65535)%N
        ∧ bound_port s
          = match port (ui configService) with
            | Some 0%N | None => 8080%N
            | Some n => n
            end
        ∧ startup_log s = [(LevelWarn, startup_line configService)])
  ∧ (∀ n, port (ui configService) = Some n -> (65535 < n)%N ->
          bootstrap (Some sc) configService = None).
Proof.
  unfold bootstrap, listen, Js.or_num. split.
  - intros s.
    destruct (port (ui configService)) as [n|].
    + destruct (N.eqb_spec n 0) as [->|Hn].
      * intros [= <-]. cbn. repeat split; done.
      * destruct (N.leb_spec n 65535) as [Hle|]; [| discriminate].
        intros [= <-]. cbn. repeat split; try done. by destruct n.
    + intros [= <-]. cbn. repeat split; done.
  - intros n -> Hn.
    destruct (N.eqb_spec n 0) as [->|_]; [lia |].
    destruct (N.leb_spec n 65535); [lia | reflexivity].
Qed.

Lemma listen_port_never_zero_witness :
  (bound_host {| startup_log := [(LevelWarn, "Console v4.5.1 is listening on port 8581")];
                 bound_host := "0.0.0.0"; bound_port := 8581 |} = "0.0.0.0"
   ∧ (8581 ≠ 0)%N)
  ∧ bootstrap (Some Sample.no_override) (Sample.config (Some 65536%N) None)
    = None.
Proof.
  split.
  - destruct (proj1 (listen_port_never_zero Sample.no_override
                       (Sample.config (Some 8581%N) None))
                {| startup_log :=
                     [(LevelWarn, "Console v4.5.1 is listening on port 8581")];
                   bound_host := "0.0.0.0"; bound_port := 8581 |}
                eq_refl) as (Hh & Hn & _).
    exact (conj Hh Hn).
  - apply (proj2 (listen_port_never_zero Sample.no_override
                    (Sample.config (Some 65536%N) None)) 65536%N);
      reflexivity.
Defined.

Lemma startup_line_has_port_witness :
  (∃ s, bootstrap (Some Sample.no_override)
          (Sample.config (Some 8581%N) None) = Some s
        ∧ bound_port s = 8581%N)
  ∧ Js.includes (Js.num_to_string 8581)
      "Console v4.5.1 is listening on port 8581" = true.
Proof.
  apply (startup_line_has_port Sample.no_override
           (Sample.config (Some 8581%N) None) 8581);
    [reflexivity | discriminate | vm_compute; discriminate].
Defined.
